(** * fc-nodejs-sdk: the request signing and dispatch core of [FCClient]

    A shallow embedding of [src/library/client.ts] and of its helper
    [composeStringToSign] / [buildCanonicalHeaders].

    Conventions of the embedding.
    - A JavaScript string is represented by the bytes of its UTF-8 encoding
      (a Rocq [string]); [utf8] is therefore the identity on the
      representation.  [toLowerCase] and [trim] act on the ASCII range, which
      is where HTTP header names live; the default [Array.prototype.sort]
      compares these byte strings lexicographically.
    - A JavaScript object used as a mapping is the list of its own
      properties in enumeration order, with unique keys; a new property is
      enumerated last (array-index names, which the engine enumerates
      first, do not occur among header and query names here).
    - Numbers are the integer-valued ones ([content-length], status codes).
    - An exception is an explicit [Throw] result.
    - The hash functions of [crypto] and [kitx], [JSON.stringify] and
      [JSON.parse] belong to the platform and are variables of the
      development. *)

From Stdlib Require Import ZArith NArith Ascii String List Lia DecimalString.
From stdpp Require Import base list sorting strings.

Local Open Scope Z_scope.

(** ** JavaScript strings *)

Module Js.

Definition LF : string := String "010"%char "".

(** [s.startsWith(p)] *)
Definition startsWith (s p : string) : bool := String.prefix p s.

Definition lower_ascii (c : ascii) : ascii :=
  let n := N_of_ascii c in
  if ((65 <=? n) && (n <=? 90))%N then ascii_of_N (n + 32) else c.

(** [s.toLowerCase()] *)
Fixpoint toLowerCase (s : string) : string :=
  match s with
  | EmptyString => EmptyString
  | String c r => String (lower_ascii c) (toLowerCase r)
  end.

Definition is_white (c : ascii) : bool :=
  let n := N_of_ascii c in
  ((9 <=? n) && (n <=? 13) || (n =? 32))%N.

Fixpoint trimStart (s : string) : string :=
  match s with
  | EmptyString => EmptyString
  | String c r => if is_white c then trimStart r else s
  end.

(** [s.trim()] *)
Definition trim (s : string) : string :=
  String.rev (trimStart (String.rev (trimStart s))).

(** [l.join(sep)] on an array of strings *)
Fixpoint join (sep : string) (l : list string) : string :=
  match l with
  | [] => ""
  | [x] => x
  | x :: r => x +:+ sep +:+ join sep r
  end.

(** [String(n)] for an integer-valued number *)
Definition num_to_string (n : Z) : string :=
  NilZero.string_of_int (Z.to_int n).

(** *** [decodeURIComponent] *)

Definition hex_val (c : ascii) : option N :=
  let n := N_of_ascii c in
  if ((48 <=? n) && (n <=? 57))%N then Some (n - 48)%N
  else if ((65 <=? n) && (n <=? 70))%N then Some (n - 55)%N
  else if ((97 <=? n) && (n <=? 102))%N then Some (n - 87)%N
  else None.

(** A character of the input: literal, or an escape [%XX] with its octet. *)
Inductive uri_item := Lit (c : ascii) | Esc (b : N).

Fixpoint uri_items (s : string) : option (list uri_item) :=
  match s with
  | EmptyString => Some []
  | String c r =>
      if Ascii.eqb c "%" then
        match r with
        | String h1 (String h2 r') =>
            match hex_val h1, hex_val h2, uri_items r' with
            | Some a, Some b, Some l => Some (Esc (16 * a + b) :: l)
            | _, _, _ => None
            end
        | _ => None
        end
      else
        match uri_items r with
        | Some l => Some (Lit c :: l)
        | None => None
        end
  end.

Definition is_cont (b : N) : bool := (N.land b 192 =? 128)%N.

Definition str_of_octets (l : list N) : string :=
  fold_right (fun b s => String (ascii_of_N b) s) "" l.

(** Escaped octets must spell well-formed UTF-8: no stray continuation
    octet, no over-long form, no surrogate, nothing above U+10FFFF. *)
Fixpoint uri_decode (l : list uri_item) : option string :=
  match l with
  | [] => Some ""
  | Lit c :: r => option_map (String c) (uri_decode r)
  | Esc b0 :: r =>
      if (b0 <? 128)%N then option_map (String (ascii_of_N b0)) (uri_decode r)
      else if (b0 <? 192)%N then None
      else if (b0 <? 224)%N then
        match r with
        | Esc b1 :: r' =>
            let cp := (N.land b0 31 * 64 + N.land b1 63)%N in
            if is_cont b1 && (128 <=? cp)%N
            then option_map (String.app (str_of_octets [b0; b1])) (uri_decode r')
            else None
        | _ => None
        end
      else if (b0 <? 240)%N then
        match r with
        | Esc b1 :: Esc b2 :: r' =>
            let cp := (N.land b0 15 * 4096 + N.land b1 63 * 64 + N.land b2 63)%N in
            if is_cont b1 && is_cont b2 && (2048 <=? cp)%N
               && negb ((55296 <=? cp) && (cp <=? 57343))%N
            then option_map (String.app (str_of_octets [b0; b1; b2])) (uri_decode r')
            else None
        | _ => None
        end
      else if (b0 <? 248)%N then
        match r with
        | Esc b1 :: Esc b2 :: Esc b3 :: r' =>
            let cp := (N.land b0 7 * 262144 + N.land b1 63 * 4096
                       + N.land b2 63 * 64 + N.land b3 63)%N in
            if is_cont b1 && is_cont b2 && is_cont b3
               && (65536 <=? cp)%N && (cp <=? 1114111)%N
            then option_map (String.app (str_of_octets [b0; b1; b2; b3])) (uri_decode r')
            else None
        | _ => None
        end
      else None
  end.

(** [decodeURIComponent(s)]; [None] stands for the [URIError] it throws. *)
Definition decodeURIComponent (s : string) : option string :=
  match uri_items s with
  | Some l => uri_decode l
  | None => None
  end.

End Js.

(** ** JavaScript values and objects *)

#[local] Set Warnings "-register-all".

Inductive JsVal : Type :=
| VUndefined
| VNull
| VBool (b : bool)
| VNum (n : Z)                            (* an integer-valued number *)
| VStr (s : string)
| VBuffer (bs : list Byte.byte)           (* a Node.js [Buffer] *)
| VStream (id : nat)                      (* an object whose [pipe] is a function *)
| VArr (l : list JsVal)
| VObj (fields : list (string * JsVal)).

(** A mapping: own properties in enumeration order. *)
Definition Obj : Type := list (string * JsVal).

Module Value.

(** Truthiness, as tested by [if (v)], [!v] and [v || d]. *)
Definition truthy (v : JsVal) : bool :=
  match v with
  | VUndefined | VNull => false
  | VBool b => b
  | VNum n => negb (n =? 0)
  | VStr s => negb (String.eqb s "")
  | _ => true
  end.

(** [a || b] *)
Definition or (a b : JsVal) : JsVal := if truthy a then a else b.

(** [ToString], as applied by template literals. *)
Fixpoint toString (v : JsVal) : string :=
  match v with
  | VUndefined => "undefined"
  | VNull => "null"
  | VBool true => "true"
  | VBool false => "false"
  | VNum n => Js.num_to_string n
  | VStr s => s
  | VBuffer bs => string_of_list_byte bs
  | VStream _ => "[object Object]"
  | VArr l =>
      Js.join ","
        (map (fun x => match x with
                       | VUndefined | VNull => ""
                       | _ => toString x
                       end) l)
  | VObj _ => "[object Object]"
  end.

(** [o[k]] on a mapping; a missing property reads as [undefined]. *)
Fixpoint lookup (k : string) (o : Obj) : option JsVal :=
  match o with
  | [] => None
  | (k', v) :: r => if String.eqb k k' then Some v else lookup k r
  end.

Definition get (o : Obj) (k : string) : JsVal :=
  match lookup k o with Some v => v | None => VUndefined end.

(** [o[k] = v]: an existing property keeps its place, a new one goes last. *)
Fixpoint set (k : string) (v : JsVal) (o : Obj) : Obj :=
  match o with
  | [] => [(k, v)]
  | (k', v') :: r =>
      if String.eqb k k' then (k, v) :: r else (k', v') :: set k v r
  end.

(** [Object.assign(target, source)] *)
Definition assign (target source : Obj) : Obj :=
  fold_left (fun t kv => set (fst kv) (snd kv) t) source target.

(** [Object.keys(o)] *)
Definition keys (o : Obj) : list string := map fst o.

(** [v.k] on an arbitrary value: [None] is the [TypeError] raised on
    [undefined] and [null]; the other values of the model have no own
    property besides the fields of an object. *)
Definition prop (v : JsVal) (k : string) : option JsVal :=
  match v with
  | VUndefined | VNull => None
  | VObj o => Some (get o k)
  | _ => Some VUndefined
  end.

End Value.

(** ** Encodings of the platform *)

Module Encoding.

(** [Buffer.from(s, 'utf8')] *)
Definition utf8 (s : string) : list Byte.byte := list_byte_of_string s.

Definition b64_char (n : N) : ascii :=
  if (n <? 26)%N then ascii_of_N (n + 65)
  else if (n <? 52)%N then ascii_of_N (n + 71)
  else if (n <? 62)%N then ascii_of_N (n - 4)
  else if (n =? 62)%N then "+"%char else "/"%char.

Definition b64_sextet (w : N) (i : N) : ascii :=
  b64_char (N.land (N.shiftr w (6 * i)) 63).

(** [buf.toString('base64')] *)
Fixpoint base64 (bs : list Byte.byte) : string :=
  match bs with
  | [] => ""
  | [a] =>
      let w := (Byte.to_N a * 65536)%N in
      String (b64_sextet w 3) (String (b64_sextet w 2) "==")
  | [a; b] =>
      let w := (Byte.to_N a * 65536 + Byte.to_N b * 256)%N in
      String (b64_sextet w 3) (String (b64_sextet w 2) (String (b64_sextet w 1) "="))
  | a :: b :: c :: r =>
      let w := (Byte.to_N a * 65536 + Byte.to_N b * 256 + Byte.to_N c)%N in
      String (b64_sextet w 3) (String (b64_sextet w 2)
        (String (b64_sextet w 1) (String (b64_sextet w 0) (base64 r))))
  end.

Definition hex_digit (n : N) : ascii :=
  if (n <? 10)%N then ascii_of_N (n + 48) else ascii_of_N (n + 55).

Definition form_unreserved (c : ascii) : bool :=
  let n := N_of_ascii c in
  ((48 <=? n) && (n <=? 57) || (65 <=? n) && (n <=? 90)
   || (97 <=? n) && (n <=? 122)
   || (n =? 42) || (n =? 45) || (n =? 46) || (n =? 95))%N.

(** The [application/x-www-form-urlencoded] byte serializer. *)
Fixpoint form_encode (s : string) : string :=
  match s with
  | EmptyString => EmptyString
  | String c r =>
      if form_unreserved c then String c (form_encode r)
      else if Ascii.eqb c " " then String "+" (form_encode r)
      else
        let n := N_of_ascii c in
        String "%" (String (hex_digit (n / 16)) (String (hex_digit (n mod 16))
          (form_encode r)))
  end.

(** [new URLSearchParams(query).toString()] for a record [query]. *)
Definition URLSearchParams_toString (query : Obj) : string :=
  Js.join "&"
    (map (fun kv => form_encode (fst kv) +:+ "=" +:+
                    form_encode (Value.toString (snd kv))) query).

End Encoding.

(** ** Exceptions *)

Inductive Exn : Type :=
| URIError                                   (* thrown by [decodeURIComponent] *)
| TypeError (msg : string)
| SyntaxError                                (* thrown by [JSON.parse] *)
| TransportError (msg : string)              (* a rejection of [httpx] *)
| FCError (name : string) (code : JsVal) (message : string).
                                             (* the [Error] built by [request] *)

Inductive result (A : Type) : Type :=
| Ok (a : A)
| Throw (e : Exn).
Arguments Ok {A} a.
Arguments Throw {A} e.

#[export] Instance result_ret : MRet result := fun A a => Ok a.
#[export] Instance result_bind : MBind result := fun A B k r =>
  match r with
  | Ok a => k a
  | Throw e => Throw e
  end.
#[export] Instance result_fmap : FMap result := fun A B f r =>
  match r with
  | Ok a => Ok (f a)
  | Throw e => Throw e
  end.

(** ** The helper: [buildCanonicalHeaders] and [composeStringToSign] *)

Module Helper.

Import Js.

(** [list.sort()] and [params.sort()]: the default comparison on strings. *)
Definition sort (l : list string) : list string := merge_sort String.le l.

(** The first loop of [buildCanonicalHeaders]: one step per key, on the
    pair of [list] and [fcHeaders]. *)
Definition collect_step (headers : Obj) (prefix : string)
    (st : list string * Obj) (key : string) : list string * Obj :=
  let lowerKey := trim (toLowerCase key) in
  if startsWith lowerKey prefix
  then (fst st ++ [lowerKey], Value.set lowerKey (Value.get headers key) (snd st))
  else st.

Definition collect (headers : Obj) (prefix : string) : list string * Obj :=
  fold_left (collect_step headers prefix) (Value.keys headers) ([], []).

(** Two states of the first loop that the second loop cannot tell apart:
    the same names up to order, the same value under every name. *)
Definition same_state (s1 s2 : list string * Obj) : Prop :=
  s1.1 ≡ₚ s2.1 ∧ ∀ k, Value.lookup k s1.2 = Value.lookup k s2.2.

(** The names the first loop pushes on [list], as a function of the keys. *)
Fixpoint canonical_names (prefix : string) (keys : list string) : list string :=
  match keys with
  | [] => []
  | key :: r =>
      let lowerKey := trim (toLowerCase key) in
      if startsWith lowerKey prefix
      then lowerKey :: canonical_names prefix r
      else canonical_names prefix r
  end.

(** The second loop: [canonical += `${key}:${fcHeaders[key]}\n`]. *)
Definition emit (fcHeaders : Obj) (list : list string) : string :=
  fold_left
    (fun canonical key =>
       canonical +:+ key +:+ ":" +:+ Value.toString (Value.get fcHeaders key) +:+ LF)
    list "".

Definition buildCanonicalHeaders (headers : Obj) (prefix : string) : string :=
  let '(list, fcHeaders) := collect headers prefix in
  emit fcHeaders (sort list).

(** The body of [Object.keys(queries).forEach(...)] for one key. *)
Definition query_params (kv : string * JsVal) : list string :=
  match snd kv with
  | VStr values => [fst kv +:+ "=" +:+ values]
  | VArr values => map (fun value => fst kv +:+ "=" +:+ Value.toString value) values
  | _ => []
  end.

(** The text appended when [queries] is supplied. *)
Definition query_block (queries : Obj) : string :=
  LF +:+ join LF (sort (concat (map query_params queries))).

(** The string built before the query is looked at. *)
Definition stringToSign_head (method pathUnescaped : string) (headers : Obj)
  : string :=
  let contentMD5 := Value.or (Value.get headers "content-md5") (VStr "") in
  let contentType := Value.or (Value.get headers "content-type") (VStr "") in
  let date := Value.get headers "date" in
  let signHeaders := buildCanonicalHeaders headers "x-fc-" in
  method +:+ LF +:+ Value.toString contentMD5 +:+ LF +:+
  Value.toString contentType +:+ LF +:+ Value.toString date +:+ LF +:+
  signHeaders +:+ pathUnescaped.

Definition composeStringToSign (method path : string) (headers : Obj)
    (queries : option Obj) : result string :=
  match decodeURIComponent path with
  | None => Throw URIError
  | Some pathUnescaped =>
      let str := stringToSign_head method pathUnescaped headers in
      match queries with
      | Some q => Ok (str +:+ query_block q)
      | None => Ok str
      end
  end.

End Helper.


(** ** The client *)

(** [ClientConfig] *)
Module Config.
Record t : Type := {
  accessKeyID : string;
  accessKeySecret : string;
  region : string;
  secure : option string;
  internal : option string;
  timeout : option Z;                (* [Some] for a finite number *)
  securityToken : option string;
  endpoint : option string;
  headers : option Obj
}.
End Config.

(** What [httpx.request] is given, and what it resolves to. *)
Record WireRequest : Type := {
  wire_url : string;
  wire_method : string;
  wire_timeout : Z;
  wire_headers : Obj;
  wire_data : option JsVal
}.

Record Response : Type := {
  statusCode : Z;
  resp_headers : list (string * string);
  resp_body : list Byte.byte
}.

(** The value [request] resolves to: [{headers, data}]. *)
Record Envelope : Type := {
  env_headers : list (string * string);
  env_data : JsVal
}.

Module FCClient.

Import Js Encoding.

Record t : Type := {
  accountId : string;
  accessKeyID : string;
  securityToken : option string;
  accessKeySecret : string;
  endpoint : string;
  host : string;
  version : string;
  timeout : Z;
  headers : Obj
}.

Definition DQ : string := String "034"%char "".

(** Truthiness of a string, and of an optional string property. *)
Definition nonempty (s : string) : bool := negb (String.eqb s "").
Definition present (o : option string) : bool :=
  match o with Some s => nonempty s | None => false end.

Definition must_be_passed (what tail : string) : Exn :=
  TypeError (DQ +:+ what +:+ DQ +:+ " must be passed in" +:+ tail).

(** [new FCClient(accountId, config)]; [config = None] is a missing
    argument. *)
Definition new (accountId : string) (config : option Config.t) : result t :=
  if negb (nonempty accountId) then Throw (must_be_passed "accountid" "") else
  match config with
  | None => Throw (must_be_passed "config" "")
  | Some config =>
  let accessKeyID := Config.accessKeyID config in
  if negb (nonempty accessKeyID) then Throw (must_be_passed "config.accessKeyID" "") else
  let sts := startsWith accessKeyID "STS" in
  if sts && negb (present (Config.securityToken config))
  then Throw (must_be_passed "config.securityToken" " for STS") else
  let securityToken := if sts then Config.securityToken config else None in
  let accessKeySecret := Config.accessKeySecret config in
  if negb (nonempty accessKeySecret)
  then Throw (must_be_passed "config.accessKeySecret" "") else
  let region := Config.region config in
  if negb (nonempty region) then Throw (must_be_passed "config.region" "") else
  let protocol := if present (Config.secure config) then "https" else "http" in
  let internal := if present (Config.internal config) then "-internal" else "" in
  let host := accountId +:+ "." +:+ region +:+ internal +:+ ".fc.aliyuncs.com" in
  Ok {| accountId := accountId;
        accessKeyID := accessKeyID;
        securityToken := securityToken;
        accessKeySecret := accessKeySecret;
        endpoint := (if present (Config.endpoint config)
                     then default "" (Config.endpoint config)
                     else protocol +:+ "://" +:+ host);
        host := host;
        version := "2016-08-15";
        timeout := default 60000 (Config.timeout config);
        headers := default [] (Config.headers config) |}
  end.

Section Platform.

(** [crypto.createHmac('sha256', key).update(data).digest()] *)
Variable hmac_sha256 : list Byte.byte -> list Byte.byte -> list Byte.byte.
(** [kitx.md5(buff, 'hex')] *)
Variable md5_hex : list Byte.byte -> string.
(** [JSON.stringify], on the values of the model. *)
Variable JSON_stringify : JsVal -> string.
(** [JSON.parse]; [None] is its [SyntaxError]. *)
Variable JSON_parse : string -> option JsVal.
(** [new Date().toUTCString()] at the time of the call. *)
Variable utc_now : string.
(** The [user-agent] text built from [process]. *)
Variable user_agent : string.
(** [httpx.request]: the one network round trip. *)
Variable httpx_request : WireRequest -> result Response.

Definition signString (source secret : string) : string :=
  base64 (hmac_sha256 (utf8 secret) (utf8 source)).

(** [FCClient.getSignature]; a missing [headers] defaults to [{}]. *)
Definition getSignature (accessKeyID accessKeySecret method path : string)
    (headers : option Obj) (queries : option Obj) : result string :=
  stringToSign ← Helper.composeStringToSign method path (default [] headers) queries;
  let sign := signString stringToSign accessKeySecret in
  Ok ("FC " +:+ accessKeyID +:+ ":" +:+ sign).

Definition buildHeaders (c : t) : Obj :=
  let headers :=
    [ ("accept", VStr "application/json");
      ("date", VStr utc_now);
      ("host", VStr (host c));
      ("user-agent", VStr user_agent);
      ("x-fc-account-id", VStr (accountId c)) ] in
  if present (securityToken c)
  then Value.set "x-fc-security-token" (VStr (default "" (securityToken c))) headers
  else headers.

(** [typeof body.pipe === 'function'] *)
Definition has_pipe (body : JsVal) : bool :=
  match body with VStream _ => true | _ => false end.

Definition buffer_bytes (buff : JsVal) : list Byte.byte :=
  match buff with VBuffer bs => bs | _ => [] end.

(** Lines 264-268: the URL put on the wire. *)
Definition request_url (c : t) (path : string) (query : option Obj) : string :=
  let url := endpoint c +:+ "/" +:+ version c +:+ path in
  match query with
  | Some q =>
      if (0 <? Z.of_nat (length (Value.keys q)))
      then url +:+ "?" +:+ URLSearchParams_toString q
      else url
  | None => url
  end.

(** Line 270: [Object.assign(this.buildHeaders(), this.headers, headers)]. *)
Definition merged_headers (c : t) (headers : option Obj) : Obj :=
  Value.assign (Value.assign (buildHeaders c) (FCClient.headers c))
               (default [] headers).

(** Lines 271-300: the headers after the body is encoded, and [postBody]. *)
Definition encode_body (body : JsVal) (headers : Obj) : Obj * option JsVal :=
  if Value.truthy body then
    let '(buff, headers) :=
      match body with
      | VBuffer _ =>
          (body, Value.set "content-type" (VStr "application/octet-stream") headers)
      | VStr s =>
          (VBuffer (utf8 s),
           Value.set "content-type" (VStr "application/octet-stream") headers)
      | VStream _ =>
          (body, Value.set "content-type" (VStr "application/octet-stream") headers)
      | _ =>
          (VBuffer (utf8 (JSON_stringify body)),
           Value.set "content-type" (VStr "application/json") headers)
      end in
    let headers :=
      if negb (has_pipe body) then
        let digest := md5_hex (buffer_bytes buff) in
        let md5 := base64 (utf8 digest) in
        Value.set "content-md5" (VStr md5)
          (Value.set "content-length"
             (VNum (Z.of_nat (length (buffer_bytes buff)))) headers)
      else headers in
    (headers, Some buff)
  else (headers, None).

(** The bytes [buff] holds for a body without [pipe] (lines 277-289). *)
Definition body_bytes (body : JsVal) : list Byte.byte :=
  match body with
  | VBuffer bs => bs
  | VStr s => utf8 s
  | _ => utf8 (JSON_stringify body)
  end.

(** Lines 302-306. *)
Definition queriesToSign (path : string) (query : option Obj) : option Obj :=
  if startsWith path "/proxy/" then Some (default [] query) else None.

(** The headers handed to [getSignature]. *)
Definition signed_headers (c : t) (body : JsVal) (headers : option Obj) : Obj :=
  fst (encode_body body (merged_headers c headers)).

(** The canonical string [getSignature] computes for a call of [request]. *)
Definition request_stringToSign (c : t) (method path : string)
    (query : option Obj) (body : JsVal) (headers : option Obj) : result string :=
  Helper.composeStringToSign method ("/" +:+ version c +:+ path)
    (signed_headers c body headers) (queriesToSign path query).

(** Lines 264-325: everything [request] does up to the transport call. *)
Definition request_prepare (c : t) (method path : string)
    (query : option Obj) (body : JsVal) (headers : option Obj)
  : result WireRequest :=
  let url := request_url c path query in
  let '(headers, postBody) := encode_body body (merged_headers c headers) in
  signature ← getSignature (accessKeyID c) (accessKeySecret c) method
                ("/" +:+ version c +:+ path) (Some headers)
                (queriesToSign path query);
  Ok {| wire_url := url;
        wire_method := method;
        wire_timeout := timeout c;
        wire_headers := Value.set "authorization" (VStr signature) headers;
        wire_data := postBody |}.

(** [response.headers[k]] *)
Fixpoint header (k : string) (h : list (string * string)) : option string :=
  match h with
  | [] => None
  | (k', v) :: r => if String.eqb k k' then Some v else header k r
  end.

(** Lines 329-348: the response body as read, then parsed when the
    response declares JSON. *)
Definition decode_body (rawBuf : bool) (response : Response) : result JsVal :=
  let text := string_of_list_byte (resp_body response) in
  let responseBody :=
    if negb rawBuf || present (header "x-fc-error-type" (resp_headers response))
    then VStr text
    else VBuffer (resp_body response) in
  let contentType := default "" (header "content-type" (resp_headers response)) in
  if startsWith contentType "application/json"
  then match JSON_parse text with
       | Some v => Ok v
       | None => Throw SyntaxError
       end
  else Ok responseBody.

(** [`${requestid}`] for [response.headers['x-fc-request-id']] *)
Definition requestid_text (response : Response) : string :=
  match header "x-fc-request-id" (resp_headers response) with
  | Some r => r
  | None => "undefined"
  end.

(** Lines 355-359. *)
Definition errMsg_of (upper lower : JsVal) : JsVal :=
  if Value.truthy upper then upper else lower.

(** Lines 361-365: the error object, as name, code and message. *)
Definition fc_error (method path : string) (code : Z) (requestid : string)
    (errorCode errMsg : JsVal) : Exn :=
  FCError ("FC" +:+ Value.toString errorCode +:+ "Error")
          errorCode
          (method +:+ " " +:+ path +:+ " failed with " +:+ num_to_string code
           +:+ ". requestid: " +:+ requestid +:+ ", message: "
           +:+ Value.toString errMsg +:+ ".").

(** Lines 327-373: what [request] makes of the response. *)
Definition request_interpret (method path : string) (rawBuf : bool)
    (response : Response) : result Envelope :=
  responseBody ← decode_body rawBuf response;
  if (statusCode response <? 200) || (300 <=? statusCode response) then
    match Value.prop responseBody "ErrorMessage",
          Value.prop responseBody "errorMessage",
          Value.prop responseBody "ErrorCode" with
    | Some upper, Some lower, Some errorCode =>
        Throw (fc_error method path (statusCode response)
                 (requestid_text response) errorCode (errMsg_of upper lower))
    | _, _, _ => Throw (TypeError "Cannot read properties of null")
    end
  else
    Ok {| env_headers := resp_headers response; env_data := responseBody |}.

(** [FCClient.prototype.request]; [opts.rawBuf] is [rawBuf]. *)
Definition request (c : t) (method path : string) (query : option Obj)
    (body : JsVal) (headers : option Obj) (rawBuf : bool) : result Envelope :=
  req ← request_prepare c method path query body headers;
  response ← httpx_request req;
  request_interpret method path rawBuf response.

End Platform.

End FCClient.

(** ** Sample data

    Concrete inputs at which the statements below are instantiated.  The
    platform functions are given here by their values at the sample inputs;
    the statements themselves hold for every platform. *)

Module Sample.

Import Encoding.

(** [kitx.md5(_, 'hex')], given by its values at the body [hello] and at
    the empty buffer. *)
Definition md5_hex (bs : list Byte.byte) : string :=
  if String.eqb (string_of_list_byte bs) "hello"
  then "5d41402abc4b2a76b9719d911017c592"
  else "d41d8cd98f00b204e9800998ecf8427e".

(** [JSON.stringify], given by its value at the empty object. *)
Definition JSON_stringify (v : JsVal) : string := "{}".

Definition not_found_text : string :=
  "{" +:+ FCClient.DQ +:+ "ErrorCode" +:+ FCClient.DQ +:+ ":"
      +:+ FCClient.DQ +:+ "ServiceNotFound" +:+ FCClient.DQ +:+ ","
      +:+ FCClient.DQ +:+ "ErrorMessage" +:+ FCClient.DQ +:+ ":"
      +:+ FCClient.DQ +:+ "foo" +:+ FCClient.DQ +:+ "}".

(** [JSON.parse] at the error document of the 404 example; the other
    sample text, an HTML page, is no JSON. *)
Definition JSON_parse (s : string) : option JsVal :=
  if String.eqb s not_found_text
  then Some (VObj [("ErrorCode", VStr "ServiceNotFound"); ("ErrorMessage", VStr "foo")])
  else None.

Definition utc_now : string := "Tue, 15 Nov 1994 08:12:31 GMT".
Definition user_agent : string := "Node.js(v18.0.0) OS(linux/x64) SDK(@alicloud/fc2@v2.2.2)".

Definition config : Config.t :=
  {| Config.accessKeyID := "key-id";
     Config.accessKeySecret := "s3cr3t";
     Config.region := "cn-shanghai";
     Config.secure := None;
     Config.internal := None;
     Config.timeout := None;
     Config.securityToken := None;
     Config.endpoint := None;
     Config.headers := None |}.

(** The client [new FCClient('acct', config)] builds. *)
Definition client : FCClient.t :=
  {| FCClient.accountId := "acct";
     FCClient.accessKeyID := "key-id";
     FCClient.securityToken := None;
     FCClient.accessKeySecret := "s3cr3t";
     FCClient.endpoint := "http://acct.cn-shanghai.fc.aliyuncs.com";
     FCClient.host := "acct.cn-shanghai.fc.aliyuncs.com";
     FCClient.version := "2016-08-15";
     FCClient.timeout := 60000;
     FCClient.headers := [] |}.

(** A temporary-credential configuration without its session token. *)
Definition sts_config : Config.t :=
  {| Config.accessKeyID := "STS.key-id";
     Config.accessKeySecret := "s3cr3t";
     Config.region := "cn-shanghai";
     Config.secure := None;
     Config.internal := None;
     Config.timeout := None;
     Config.securityToken := None;
     Config.endpoint := None;
     Config.headers := None |}.

Definition not_found : Response :=
  {| statusCode := 404;
     resp_headers := [("content-type", "application/json");
                      ("x-fc-request-id", "req-1")];
     resp_body := utf8 not_found_text |}.

(** A gateway answering with an HTML page under a JSON content type. *)
Definition bad_gateway : Response :=
  {| statusCode := 502;
     resp_headers := [("content-type", "application/json");
                      ("x-fc-request-id", "req-2")];
     resp_body := utf8 "<html>Bad Gateway</html>" |}.

Definition example_headers : Obj :=
  [("date", VStr "Tue, 15 Nov 1994 08:12:31 GMT");
   ("host", VStr "acct.cn-shanghai.example.com")].

(** Two header names that differ in case only, in the two insertion orders. *)
Definition trace_upper_first : Obj :=
  [("X-Fc-Trace", VStr "a"); ("x-fc-trace", VStr "b")].
Definition trace_lower_first : Obj :=
  [("x-fc-trace", VStr "b"); ("X-Fc-Trace", VStr "a")].

Definition example_canonical : string :=
  "GET" +:+ Js.LF +:+ Js.LF +:+ Js.LF +:+ "Tue, 15 Nov 1994 08:12:31 GMT"
  +:+ Js.LF +:+ "/2016-08-15/services".

End Sample.


(** ** Further sample data *)

Module Cases.

Import Encoding.

(** A successful JSON response, with the document of the 404 example. *)
Definition ok_response : Response :=
  {| statusCode := 200;
     resp_headers := [("content-type", "application/json")];
     resp_body := utf8 Sample.not_found_text |}.

(** A temporary-credential configuration with its session token. *)
Definition sts_config : Config.t :=
  {| Config.accessKeyID := "STS.key-id";
     Config.accessKeySecret := "s3cr3t";
     Config.region := "cn-shanghai";
     Config.secure := Some "true";
     Config.internal := None;
     Config.timeout := None;
     Config.securityToken := Some "tok";
     Config.endpoint := None;
     Config.headers := None |}.

(** The client [new FCClient('acct', sts_config)] builds. *)
Definition sts_client : FCClient.t :=
  {| FCClient.accountId := "acct";
     FCClient.accessKeyID := "STS.key-id";
     FCClient.securityToken := Some "tok";
     FCClient.accessKeySecret := "s3cr3t";
     FCClient.endpoint := "https://acct.cn-shanghai.fc.aliyuncs.com";
     FCClient.host := "acct.cn-shanghai.fc.aliyuncs.com";
     FCClient.version := "2016-08-15";
     FCClient.timeout := 60000;
     FCClient.headers := [] |}.

(** Signed and unsigned headers, in two insertion orders. *)
Definition headers_a : Obj :=
  [("date", VStr "Tue, 15 Nov 1994 08:12:31 GMT");
   ("X-Fc-Log-Type", VStr "Tail");
   ("x-fc-account-id", VStr "acct")].
Definition headers_b : Obj :=
  [("x-fc-account-id", VStr "acct");
   ("date", VStr "Tue, 15 Nov 1994 08:12:31 GMT");
   ("X-Fc-Log-Type", VStr "Tail")].

Definition query_a : Obj := [("b", VStr "2"); ("a", VArr [VStr "1"; VStr "0"])].
Definition query_b : Obj := [("a", VArr [VStr "1"; VStr "0"]); ("b", VStr "2")].

End Cases.

(** * Properties *)

Section StringFacts.

Lemma app_empty_r (s : string) : s +:+ "" = s.
Proof.
  induction s as [|c s IH]; [done|].
  change (String c (s +:+ "") = String c s). by rewrite IH.
Qed.

Lemma app_assoc_s (a b c : string) : (a +:+ b) +:+ c = a +:+ b +:+ c.
Proof.
  induction a as [|x a IH]; [done|].
  change (String x ((a +:+ b) +:+ c) = String x (a +:+ b +:+ c)). by rewrite IH.
Qed.

End StringFacts.

Section ValueFacts.

Lemma lookup_set_eq k v o : Value.lookup k (Value.set k v o) = Some v.
Proof.
  induction o as [|[k' v'] o IH]; simpl.
  - by rewrite String.eqb_refl.
  - destruct (String.eqb k k') eqn:E; simpl; rewrite ?String.eqb_refl, ?E; done.
Qed.

Lemma lookup_set_ne k k' v o :
  k ≠ k' → Value.lookup k (Value.set k' v o) = Value.lookup k o.
Proof.
  intros Hne. apply String.eqb_neq in Hne.
  induction o as [|[k2 v2] o IH]; simpl.
  - by rewrite Hne.
  - destruct (String.eqb k' k2) eqn:E; simpl.
    + apply String.eqb_eq in E as <-. by rewrite Hne.
    + by rewrite IH.
Qed.

Lemma lookup_assign_absent k target source :
  Value.lookup k source = None →
  Value.lookup k (Value.assign target source) = Value.lookup k target.
Proof.
  unfold Value.assign. revert target.
  induction source as [|[k' v'] source IH]; intros target Hk; simpl in *; [done|].
  destruct (String.eqb k k') eqn:E; [done|].
  rewrite IH by done. apply lookup_set_ne. by apply String.eqb_neq.
Qed.

Lemma get_set_eq k v o : Value.get (Value.set k v o) k = v.
Proof. unfold Value.get. by rewrite lookup_set_eq. Qed.

Lemma get_set_ne k k' v o : k ≠ k' → Value.get (Value.set k' v o) k = Value.get o k.
Proof. intros. unfold Value.get. by rewrite lookup_set_ne. Qed.

End ValueFacts.

Section CanonicalString.

Import Js Helper.

Variable hmac_sha256 : list Byte.byte -> list Byte.byte -> list Byte.byte.

Local Abbreviation signString := (FCClient.signString hmac_sha256).
Local Abbreviation getSignature := (FCClient.getSignature hmac_sha256).

(** C2.  The example scenario: for GET on [/2016-08-15/services] with the
    two headers [date] and [host] (in either order) and no query,
    [composeStringToSign] returns the five-field text of the example, and
    the signature is the base64 text of the HMAC-SHA256 of exactly that
    text under the key [s3cr3t]. *)
Theorem example_scenario :
  composeStringToSign "GET" "/2016-08-15/services" Sample.example_headers None
    = Ok Sample.example_canonical
  ∧ composeStringToSign "GET" "/2016-08-15/services"
      (reverse Sample.example_headers) None
    = Ok Sample.example_canonical
  ∧ signString Sample.example_canonical "s3cr3t"
    = Encoding.base64
        (hmac_sha256 (Encoding.utf8 "s3cr3t") (Encoding.utf8 Sample.example_canonical))
  ∧ getSignature "key-id" "s3cr3t" "GET" "/2016-08-15/services"
      (Some Sample.example_headers) None
    = Ok ("FC key-id:" +:+
          Encoding.base64
            (hmac_sha256 (Encoding.utf8 "s3cr3t")
               (Encoding.utf8 Sample.example_canonical))).
Proof. repeat split; reflexivity. Qed.

(** C3.  [getSignature] returns the scheme tag [FC], a space, the access
    key identifier, a colon, and the base64 text of the HMAC-SHA256 digest
    of the UTF-8 canonical string keyed by the UTF-8 secret; it throws
    exactly when the canonical string cannot be built.  The result is a
    function of the arguments alone. *)
Theorem getSignature_format (accessKeyID accessKeySecret method path : string)
    (headers queries : option Obj) :
  getSignature accessKeyID accessKeySecret method path headers queries
  = (fun canonical =>
       "FC " +:+ accessKeyID +:+ ":" +:+
       Encoding.base64
         (hmac_sha256 (Encoding.utf8 accessKeySecret) (Encoding.utf8 canonical)))
    <$> composeStringToSign method path (default [] headers) queries.
Proof.
  unfold FCClient.getSignature, FCClient.signString.
  by destruct (composeStringToSign _ _ _ _).
Qed.

(** C8.  When the header mapping has no [date] key, the date position of
    the canonical string holds the text [undefined]. *)
Theorem composeStringToSign_date_absent (method path : string) (headers : Obj)
    (queries : option Obj) :
  Value.lookup "date" headers = None →
  composeStringToSign method path headers queries
  = match decodeURIComponent path with
    | None => Throw URIError
    | Some pathUnescaped =>
        Ok ((method +:+ LF
             +:+ Value.toString (Value.or (Value.get headers "content-md5") (VStr "")) +:+ LF
             +:+ Value.toString (Value.or (Value.get headers "content-type") (VStr "")) +:+ LF
             +:+ "undefined" +:+ LF
             +:+ buildCanonicalHeaders headers "x-fc-" +:+ pathUnescaped)
            +:+ match queries with Some q => query_block q | None => "" end)
    end.
Proof.
  intros Hdate. unfold composeStringToSign, stringToSign_head, Value.get.
  rewrite Hdate. destruct (decodeURIComponent path); [|done].
  destruct queries; [done|]. by rewrite app_empty_r.
Qed.

End CanonicalString.

(** The date position of the example without its [date] header. *)
Lemma composeStringToSign_date_absent_witness :
  Helper.composeStringToSign "GET" "/2016-08-15/services"
    [("host", VStr "acct.cn-shanghai.example.com")] None
  = Ok ("GET" +:+ Js.LF +:+ Js.LF +:+ Js.LF +:+ "undefined" +:+ Js.LF
        +:+ "/2016-08-15/services").
Proof.
  rewrite (composeStringToSign_date_absent "GET" "/2016-08-15/services"
             [("host", VStr "acct.cn-shanghai.example.com")] None);
    reflexivity.
Defined.

Section Construction.

Import Js FCClient.

(** C7.  Construction fails with a [TypeError], and yields no client that
    could reach the network, when the account id is empty, when the access
    key identifier or the access key secret is empty, and when the access
    key identifier begins with [STS] while the configuration supplies no
    session token (none, or an empty one). *)
Theorem constructor_rejects accountId config :
  accountId = ""
  ∨ Config.accessKeyID config = ""
  ∨ Config.accessKeySecret config = ""
  ∨ (startsWith (Config.accessKeyID config) "STS" = true
     ∧ present (Config.securityToken config) = false) →
  ∃ msg, FCClient.new accountId (Some config) = Throw (TypeError msg).
Proof.
  intros H. unfold FCClient.new.
  destruct (nonempty accountId) eqn:Ha; simpl; [|eauto].
  destruct (nonempty (Config.accessKeyID config)) eqn:Hk; simpl; [|eauto].
  destruct (startsWith (Config.accessKeyID config) "STS"
            && negb (present (Config.securityToken config))) eqn:Hs; [eauto|].
  destruct (nonempty (Config.accessKeySecret config)) eqn:Hx; simpl; [|eauto].
  exfalso. destruct H as [-> | [H | [H | [H1 H2]]]].
  - discriminate Ha.
  - rewrite H in Hk. discriminate Hk.
  - rewrite H in Hx. discriminate Hx.
  - rewrite H1, H2 in Hs. discriminate Hs.
Qed.

End Construction.

(** An [STS] key identifier without session token. *)
Lemma constructor_rejects_witness :
  ∃ msg, FCClient.new "acct" (Some Sample.sts_config) = Throw (TypeError msg).
Proof.
  apply (constructor_rejects "acct" Sample.sts_config).
  right; right; right. split; reflexivity.
Defined.

(** The sample client is the one the constructor builds. *)
Example new_sample : FCClient.new "acct" (Some Sample.config) = Ok Sample.client.
Proof. reflexivity. Qed.

Section Dispatch.

Import Js Helper Encoding FCClient.

Variable hmac_sha256 : list Byte.byte -> list Byte.byte -> list Byte.byte.
Variable md5_hex : list Byte.byte -> string.
Variable JSON_stringify : JsVal -> string.
Variable utc_now : string.
Variable user_agent : string.

Local Abbreviation signString := (FCClient.signString hmac_sha256).
Local Abbreviation encode_body := (FCClient.encode_body md5_hex JSON_stringify).
Local Abbreviation merged_headers := (FCClient.merged_headers utc_now user_agent).
Local Abbreviation signed_headers :=
  (FCClient.signed_headers md5_hex JSON_stringify utc_now user_agent).
Local Abbreviation request_stringToSign :=
  (FCClient.request_stringToSign md5_hex JSON_stringify utc_now user_agent).
Local Abbreviation request_prepare :=
  (FCClient.request_prepare hmac_sha256 md5_hex JSON_stringify utc_now user_agent).

(** [request] signs [request_stringToSign] and sends the headers it signed,
    with the [authorization] entry added. *)
Lemma request_prepare_unfold c method path query body headers :
  request_prepare c method path query body headers
  = (fun s =>
       {| wire_url := request_url c path query;
          wire_method := method;
          wire_timeout := timeout c;
          wire_headers :=
            Value.set "authorization"
              (VStr ("FC " +:+ accessKeyID c +:+ ":" +:+ signString s (accessKeySecret c)))
              (signed_headers c body headers);
          wire_data := snd (encode_body body (merged_headers c headers)) |})
    <$> request_stringToSign c method path query body headers.
Proof.
  unfold FCClient.request_prepare, FCClient.request_stringToSign,
    FCClient.signed_headers, FCClient.getSignature.
  destruct (FCClient.encode_body _ _ _ _) as [hs postBody]; simpl.
  by destruct (composeStringToSign _ _ _ _).
Qed.

Lemma request_url_unfold c path query :
  request_url c path query
  = (endpoint c +:+ "/" +:+ version c +:+ path)
    +:+ match query with
        | Some (kv :: q) => "?" +:+ URLSearchParams_toString (kv :: q)
        | _ => ""
        end.
Proof.
  unfold request_url. destruct query as [[|kv q]|]; by rewrite ?app_empty_r.
Qed.



End Dispatch.



Section Bodies.

Import Js Helper Encoding FCClient.

Variable hmac_sha256 : list Byte.byte -> list Byte.byte -> list Byte.byte.
Variable md5_hex : list Byte.byte -> string.
Variable JSON_stringify : JsVal -> string.
Variable utc_now : string.
Variable user_agent : string.

Local Abbreviation encode_body := (FCClient.encode_body md5_hex JSON_stringify).
Local Abbreviation body_bytes := (FCClient.body_bytes JSON_stringify).
Local Abbreviation merged_headers := (FCClient.merged_headers utc_now user_agent).
Local Abbreviation signed_headers :=
  (FCClient.signed_headers md5_hex JSON_stringify utc_now user_agent).
Local Abbreviation request_stringToSign :=
  (FCClient.request_stringToSign md5_hex JSON_stringify utc_now user_agent).
Local Abbreviation request_prepare :=
  (FCClient.request_prepare hmac_sha256 md5_hex JSON_stringify utc_now user_agent).

(** The payload [request] hands to the transport is [postBody]. *)
Lemma request_prepare_data c method path query body headers req :
  request_prepare c method path query body headers = Ok req →
  wire_data req = snd (encode_body body (merged_headers c headers)).
Proof.
  rewrite request_prepare_unfold.
  destruct (FCClient.request_stringToSign _ _ _ _ _ _ _ _ _ _); simpl; [|done].
  by intros [= <-].
Qed.



End Bodies.




Section Responses.

Import Js FCClient.

Variable JSON_parse : string -> option JsVal.

Local Abbreviation decode_body := (FCClient.decode_body JSON_parse).
Local Abbreviation request_interpret := (FCClient.request_interpret JSON_parse).

(** C6, as amended.  For a response with status outside [200, 300) whose
    body decodes to a value other than [null], [request] rejects with an
    error whose code is the [ErrorCode] field of the body, whose name wraps
    that code, and whose message text carries the status code, the request
    id of the [x-fc-request-id] response header, and the body's
    [ErrorMessage] when that is truthy, its [errorMessage] otherwise. *)
Theorem request_error_mapping (method path : string) (rawBuf : bool)
    (response : Response) (responseBody upper lower errorCode : JsVal) :
  statusCode response < 200 ∨ 300 ≤ statusCode response →
  decode_body rawBuf response = Ok responseBody →
  Value.prop responseBody "ErrorMessage" = Some upper →
  Value.prop responseBody "errorMessage" = Some lower →
  Value.prop responseBody "ErrorCode" = Some errorCode →
  request_interpret method path rawBuf response
  = Throw (FCError
             ("FC" +:+ Value.toString errorCode +:+ "Error")
             errorCode
             (method +:+ " " +:+ path +:+ " failed with "
              +:+ num_to_string (statusCode response)
              +:+ ". requestid: "
              +:+ match header "x-fc-request-id" (resp_headers response) with
                  | Some requestid => requestid
                  | None => "undefined"
                  end
              +:+ ", message: "
              +:+ Value.toString (if Value.truthy upper then upper else lower)
              +:+ ".")).
Proof.
  intros Hstatus Hbody Hupper Hlower Hcode.
  unfold FCClient.request_interpret. rewrite Hbody. simpl.
  rewrite Hupper, Hlower, Hcode.
  assert ((statusCode response <? 200) || (300 <=? statusCode response) = true) as ->.
  { apply orb_true_iff. destruct Hstatus; [left | right]; lia. }
  reflexivity.
Qed.

End Responses.

(** The 404 of the example: status 404, code [ServiceNotFound], message
    [foo], and the request id of the response header. *)
Lemma request_error_mapping_witness :
  FCClient.request_interpret Sample.JSON_parse "GET" "/services/demo" false
    Sample.not_found
  = Throw (FCError "FCServiceNotFoundError" (VStr "ServiceNotFound")
             "GET /services/demo failed with 404. requestid: req-1, message: foo.").
Proof.
  apply (request_error_mapping Sample.JSON_parse "GET" "/services/demo" false
           Sample.not_found
           (VObj [("ErrorCode", VStr "ServiceNotFound"); ("ErrorMessage", VStr "foo")])
           (VStr "foo") VUndefined (VStr "ServiceNotFound"));
    [right; simpl; lia | reflexivity..].
Defined.

(** A 502 whose body is declared JSON and is an HTML page: [request] rejects
    with the parser's [SyntaxError], which carries neither status nor
    request id. *)
Lemma request_error_mapping_counterexample :
  (statusCode Sample.bad_gateway <? 200) || (300 <=? statusCode Sample.bad_gateway)
  = true
  ∧ FCClient.request_interpret Sample.JSON_parse "GET" "/services/demo" false
      Sample.bad_gateway
    = Throw SyntaxError.
Proof. split; reflexivity. Qed.


Section Determinism.

Import Js Helper.

Lemma lookup_set k k' v o :
  Value.lookup k (Value.set k' v o)
  = if String.eqb k k' then Some v else Value.lookup k o.
Proof.
  destruct (String.eqb k k') eqn:E.
  - apply String.eqb_eq in E as ->. apply lookup_set_eq.
  - apply lookup_set_ne. by apply String.eqb_neq.
Qed.

(** Reading a property does not depend on the enumeration order. *)
Lemma lookup_Permutation k (o o' : Obj) :
  NoDup (Value.keys o) → o ≡ₚ o' → Value.lookup k o = Value.lookup k o'.
Proof.
  intros Hnd Hp.
  induction Hp as [|[k0 v0] l l' Hp IH|[k1 v1] [k2 v2] l|l l' l'' Hp1 IH1 Hp2 IH2];
    simpl in *.
  - done.
  - apply NoDup_cons in Hnd as [_ Hnd]. by rewrite IH.
  - destruct (String.eqb k k1) eqn:E1, (String.eqb k k2) eqn:E2; try done.
    apply String.eqb_eq in E1, E2. subst k1 k2.
    apply NoDup_cons in Hnd as [Hn _]. exfalso. apply Hn. by left.
  - rewrite IH1 by done. apply IH2.
    eapply NoDup_Permutation_proper; [|exact Hnd].
    symmetry. unfold Value.keys. by apply Permutation_map.
Qed.

(** Sorting forgets the order of its input. *)
Lemma sort_Permutation (l l' : list string) : l ≡ₚ l' → sort l = sort l'.
Proof.
  intros Hp. unfold sort.
  apply (Sorted_unique String.le); try apply Sorted_merge_sort; try apply _.
  by rewrite !merge_sort_Permutation.
Qed.

Lemma canonical_names_Permutation prefix (ks ks' : list string) :
  ks ≡ₚ ks' → canonical_names prefix ks ≡ₚ canonical_names prefix ks'.
Proof.
  induction 1 as [|x l l' Hp IH|x y l|l l' l'' Hp1 IH1 Hp2 IH2]; simpl.
  - done.
  - destruct (startsWith _ prefix); by rewrite IH.
  - destruct (startsWith (trim (toLowerCase x)) prefix),
             (startsWith (trim (toLowerCase y)) prefix); try done.
    apply perm_swap.
  - by etrans.
Qed.

Lemma collect_names headers prefix ks st :
  (fold_left (collect_step headers prefix) ks st).1
  = st.1 ++ canonical_names prefix ks.
Proof.
  revert st. induction ks as [|key ks IH]; intros st; simpl.
  - by rewrite app_nil_r.
  - rewrite IH. unfold collect_step.
    destruct (startsWith _ prefix); simpl; [|done].
    by rewrite <- app_assoc.
Qed.

Lemma collect_step_same headers prefix key s1 s2 :
  same_state s1 s2 →
  same_state (collect_step headers prefix s1 key) (collect_step headers prefix s2 key).
Proof.
  intros [Hl Hf]. unfold collect_step.
  destruct (startsWith _ prefix); [|done]. split; simpl.
  - by rewrite Hl.
  - intros k. by rewrite !lookup_set, Hf.
Qed.

Lemma collect_step_swap headers prefix x y st :
  NoDup (canonical_names prefix [x; y]) →
  same_state
    (collect_step headers prefix (collect_step headers prefix st x) y)
    (collect_step headers prefix (collect_step headers prefix st y) x).
Proof.
  unfold collect_step. simpl.
  destruct (startsWith (trim (toLowerCase x)) prefix),
           (startsWith (trim (toLowerCase y)) prefix); simpl; intros Hnd;
    try (split; done).
  apply NoDup_cons in Hnd as [Hne _]. apply not_elem_of_cons in Hne as [Hne _].
  split; simpl.
  - rewrite <- !app_assoc. simpl. apply Permutation_app_head, perm_swap.
  - intros k. rewrite !lookup_set.
    destruct (String.eqb k (trim (toLowerCase y))) eqn:Ey,
             (String.eqb k (trim (toLowerCase x))) eqn:Ex; try done.
    apply String.eqb_eq in Ex, Ey. congruence.
Qed.

Lemma collect_fold_same headers prefix ks s1 s2 :
  same_state s1 s2 →
  same_state (fold_left (collect_step headers prefix) ks s1)
             (fold_left (collect_step headers prefix) ks s2).
Proof.
  revert s1 s2. induction ks as [|key ks IH]; intros s1 s2 Hs; simpl; [done|].
  by apply IH, collect_step_same.
Qed.

Lemma same_state_trans s1 s2 s3 :
  same_state s1 s2 → same_state s2 s3 → same_state s1 s3.
Proof.
  intros [Ha Hb] [Hc Hd]. split; [by rewrite Ha | intros k; by rewrite Hb].
Qed.

Lemma canonical_names_cons prefix key r :
  canonical_names prefix (key :: r)
  = if startsWith (trim (toLowerCase key)) prefix
    then trim (toLowerCase key) :: canonical_names prefix r
    else canonical_names prefix r.
Proof. reflexivity. Qed.

Lemma canonical_names_tail prefix key r :
  NoDup (canonical_names prefix (key :: r)) → NoDup (canonical_names prefix r).
Proof.
  rewrite canonical_names_cons. destruct (startsWith _ prefix); [|done].
  by intros [_ ?]%NoDup_cons.
Qed.

Lemma canonical_names_pair prefix x y r :
  NoDup (canonical_names prefix (y :: x :: r)) →
  NoDup (canonical_names prefix [x; y]).
Proof.
  rewrite !canonical_names_cons.
  destruct (startsWith (trim (toLowerCase x)) prefix),
           (startsWith (trim (toLowerCase y)) prefix); simpl;
    intros Hnd; repeat constructor; try (by intros ?%elem_of_nil).
  apply NoDup_cons in Hnd as [Hn _]. apply not_elem_of_cons in Hn as [Hn _].
  intros [Heq | ?%elem_of_nil]%elem_of_cons; [congruence | done].
Qed.

Lemma collect_Permutation headers prefix (ks ks' : list string) :
  ks ≡ₚ ks' →
  NoDup (canonical_names prefix ks) →
  ∀ s1 s2, same_state s1 s2 →
    same_state (fold_left (collect_step headers prefix) ks s1)
               (fold_left (collect_step headers prefix) ks' s2).
Proof.
  induction 1 as [|x l l' Hp IH|x y l|l l' l'' Hp1 IH1 Hp2 IH2];
    intros Hnd s1 s2 Hs.
  - done.
  - apply IH; [by eapply canonical_names_tail | by apply collect_step_same].
  - cbn [fold_left]. apply collect_fold_same.
    eapply same_state_trans;
      [|apply (collect_step_swap headers prefix y x);
        apply (canonical_names_pair prefix y x l)].
    + by do 2 apply collect_step_same.
    + eapply NoDup_Permutation_proper; [|exact Hnd].
      apply canonical_names_Permutation, perm_swap.
  - eapply same_state_trans; [by apply IH1|].
    apply IH2; [|by split].
    eapply NoDup_Permutation_proper; [|exact Hnd].
    symmetry. by apply canonical_names_Permutation.
Qed.

Lemma emit_ext fc fc' l :
  (∀ k, Value.lookup k fc = Value.lookup k fc') → emit fc l = emit fc' l.
Proof.
  intros Hf. unfold emit.
  enough (∀ acc,
    fold_left (λ canonical key,
      canonical +:+ key +:+ ":" +:+ Value.toString (Value.get fc key) +:+ LF) l acc
    = fold_left (λ canonical key,
      canonical +:+ key +:+ ":" +:+ Value.toString (Value.get fc' key) +:+ LF) l acc)
    by done.
  induction l as [|k l IH]; intros acc; simpl; [done|].
  unfold Value.get at 2 4. by rewrite Hf, IH.
Qed.

Lemma collect_step_ext headers headers' prefix st key :
  (∀ k, Value.lookup k headers = Value.lookup k headers') →
  collect_step headers prefix st key = collect_step headers' prefix st key.
Proof. intros Hh. unfold collect_step, Value.get. by rewrite Hh. Qed.

Lemma collect_fold_ext headers headers' prefix ks st :
  (∀ k, Value.lookup k headers = Value.lookup k headers') →
  fold_left (collect_step headers prefix) ks st
  = fold_left (collect_step headers' prefix) ks st.
Proof.
  intros Hh. revert st. induction ks as [|key ks IH]; intros st; simpl; [done|].
  by rewrite IH, (collect_step_ext headers headers').
Qed.

(** The canonical header lines do not depend on the insertion order, as
    long as no two of the collected names coincide. *)
Lemma buildCanonicalHeaders_Permutation (headers headers' : Obj) prefix :
  NoDup (Value.keys headers) →
  NoDup (canonical_names prefix (Value.keys headers)) →
  headers ≡ₚ headers' →
  buildCanonicalHeaders headers prefix = buildCanonicalHeaders headers' prefix.
Proof.
  intros Hkeys Hnames Hp. unfold buildCanonicalHeaders, collect.
  assert (Hk : Value.keys headers ≡ₚ Value.keys headers')
    by (unfold Value.keys; by apply Permutation_map).
  destruct (collect_Permutation headers prefix _ _ Hk Hnames ([], []) ([], []))
    as [Hl Hf]; [by split|].
  rewrite (collect_fold_ext headers headers' prefix (Value.keys headers'))
    in Hl, Hf by (intros k; by apply lookup_Permutation).
  destruct (fold_left (collect_step headers prefix) _ _) as [l fc].
  destruct (fold_left (collect_step headers' prefix) _ _) as [l' fc'].
  simpl in *. rewrite (sort_Permutation l l') by done. by apply emit_ext.
Qed.

Lemma query_params_Permutation (q q' : Obj) :
  q ≡ₚ q' → concat (map query_params q) ≡ₚ concat (map query_params q').
Proof.
  induction 1 as [|x l l' Hp IH|x y l|l l' l'' Hp1 IH1 Hp2 IH2]; simpl.
  - done.
  - by rewrite IH.
  - rewrite !app_assoc. apply Permutation_app_tail, Permutation_app_comm.
  - by etrans.
Qed.


(** C4.  Two header mappings with the same two entries, one name in two
    spellings that differ in case only, in the two insertion orders:
    [composeStringToSign] emits the later entry's value on both lines, so
    the two canonical strings differ. *)
Theorem colliding_header_names_order :
  Sample.trace_upper_first ≡ₚ Sample.trace_lower_first
  ∧ NoDup (Value.keys Sample.trace_upper_first)
  ∧ composeStringToSign "GET" "/2016-08-15/services" Sample.trace_upper_first None
    = Ok ("GET" +:+ LF +:+ LF +:+ LF +:+ "undefined" +:+ LF
          +:+ "x-fc-trace:b" +:+ LF +:+ "x-fc-trace:b" +:+ LF
          +:+ "/2016-08-15/services")
  ∧ composeStringToSign "GET" "/2016-08-15/services" Sample.trace_lower_first None
    = Ok ("GET" +:+ LF +:+ LF +:+ LF +:+ "undefined" +:+ LF
          +:+ "x-fc-trace:a" +:+ LF +:+ "x-fc-trace:a" +:+ LF
          +:+ "/2016-08-15/services").
Proof.
  split; [apply perm_swap|]. split; [|split; reflexivity].
  apply NoDup_cons. split; [|apply NoDup_singleton].
  by intros [[=] | ?%elem_of_nil]%elem_of_cons.
Qed.

End Determinism.

(** * Further properties *)


Section UnsignedHeaders.

Import Js Helper.

Lemma keys_set (k : string) (v : JsVal) (o : Obj) :
  Value.keys (Value.set k v o)
  = if bool_decide (k ∈ Value.keys o) then Value.keys o else Value.keys o ++ [k].
Proof.
  induction o as [|[k' v'] o IH]; simpl; [done|].
  destruct (String.eqb k k') eqn:E.
  - apply String.eqb_eq in E as ->. simpl.
    rewrite bool_decide_eq_true_2; [done | by left].
  - apply String.eqb_neq in E. simpl. rewrite IH.
    destruct (bool_decide (k ∈ Value.keys o)) eqn:Hin.
    + apply bool_decide_eq_true in Hin.
      rewrite bool_decide_eq_true_2; [done | by right].
    + apply bool_decide_eq_false in Hin.
      rewrite bool_decide_eq_false_2; [done|].
      by intros [?|?]%elem_of_cons.
Qed.

Lemma collect_step_set headers prefix k v st key :
  startsWith (trim (toLowerCase k)) prefix = false →
  collect_step (Value.set k v headers) prefix st key
  = collect_step headers prefix st key.
Proof.
  intros Hk. unfold collect_step.
  destruct (startsWith (trim (toLowerCase key)) prefix) eqn:Hkey; [|done].
  rewrite get_set_ne; [done|]. intros ->. congruence.
Qed.

Lemma collect_fold_set headers prefix k v ks st :
  startsWith (trim (toLowerCase k)) prefix = false →
  fold_left (collect_step (Value.set k v headers) prefix) ks st
  = fold_left (collect_step headers prefix) ks st.
Proof.
  intros Hk. revert st. induction ks as [|key ks IH]; intros st; simpl; [done|].
  by rewrite IH, collect_step_set.
Qed.

Lemma buildCanonicalHeaders_set headers prefix k v :
  startsWith (trim (toLowerCase k)) prefix = false →
  buildCanonicalHeaders (Value.set k v headers) prefix
  = buildCanonicalHeaders headers prefix.
Proof.
  intros Hk. unfold buildCanonicalHeaders, collect.
  rewrite collect_fold_set, keys_set by done.
  destruct (bool_decide _); [done|].
  rewrite fold_left_app. simpl. unfold collect_step at 1. by rewrite Hk.
Qed.


End UnsignedHeaders.


Section HeaderAssembly.

Import FCClient.

Variable utc_now : string.
Variable user_agent : string.

Local Abbreviation buildHeaders := (FCClient.buildHeaders utc_now user_agent).
Local Abbreviation merged_headers := (FCClient.merged_headers utc_now user_agent).

Lemma lookup_not_key (k : string) (o : Obj) :
  k ∉ Value.keys o → Value.lookup k o = None.
Proof.
  induction o as [|[k' v'] o IH]; simpl; [done|].
  intros [Hne Hin]%not_elem_of_cons. apply String.eqb_neq in Hne.
  rewrite Hne. by apply IH.
Qed.

Lemma lookup_assign (k : string) (target source : Obj) :
  NoDup (Value.keys source) →
  Value.lookup k (Value.assign target source)
  = match Value.lookup k source with
    | Some v => Some v
    | None => Value.lookup k target
    end.
Proof.
  unfold Value.assign. revert target.
  induction source as [|[k' v'] source IH]; intros target Hnd; simpl in *; [done|].
  apply NoDup_cons in Hnd as [Hfresh Hnd]. rewrite IH by done.
  destruct (String.eqb k k') eqn:E.
  - apply String.eqb_eq in E as ->.
    by rewrite lookup_not_key, lookup_set_eq.
  - apply String.eqb_neq in E. by rewrite lookup_set_ne.
Qed.

(** Header assembly: a call-level header overrides a client-level header of
    the same name, which overrides the computed default. *)
Theorem merged_headers_precedence (c : FCClient.t) (headers : option Obj)
    (k : string) :
  NoDup (Value.keys (FCClient.headers c)) →
  NoDup (Value.keys (default [] headers)) →
  Value.lookup k (merged_headers c headers)
  = match Value.lookup k (default [] headers) with
    | Some v => Some v
    | None =>
        match Value.lookup k (FCClient.headers c) with
        | Some v => Some v
        | None => Value.lookup k (buildHeaders c)
        end
    end.
Proof.
  intros Hc Hh. unfold FCClient.merged_headers. by rewrite !lookup_assign.
Qed.

End HeaderAssembly.

(** A call-level [accept] header replaces the computed default. *)
Lemma merged_headers_precedence_witness :
  Value.lookup "accept"
    (FCClient.merged_headers Sample.utc_now Sample.user_agent Sample.client
       (Some [("accept", VStr "text/plain")]))
  = Some (VStr "text/plain").
Proof.
  rewrite (merged_headers_precedence Sample.utc_now Sample.user_agent
             Sample.client (Some [("accept", VStr "text/plain")]) "accept");
    [reflexivity | by apply (bool_decide_unpack _)..].
Defined.

Section Interpreter.

Import Js FCClient.

Variable JSON_parse : string -> option JsVal.

Local Abbreviation decode_body := (FCClient.decode_body JSON_parse).
Local Abbreviation request_interpret := (FCClient.request_interpret JSON_parse).

(** [request] resolves exactly for a status in [200, 300) whose body
    decodes, and then to the response headers as they came and the decoded
    body. *)
Theorem request_interpret_ok_iff (method path : string) (rawBuf : bool)
    (response : Response) (envelope : Envelope) :
  request_interpret method path rawBuf response = Ok envelope
  ↔ 200 ≤ statusCode response < 300
    ∧ decode_body rawBuf response = Ok (env_data envelope)
    ∧ env_headers envelope = resp_headers response.
Proof.
  unfold FCClient.request_interpret.
  destruct (FCClient.decode_body _ _ _) as [responseBody|e]; simpl.
  - destruct (statusCode response <? 200) eqn:Hlo,
             (300 <=? statusCode response) eqn:Hhi; simpl.
    1-3: split;
      [ destruct (Value.prop responseBody "ErrorMessage"),
                 (Value.prop responseBody "errorMessage"),
                 (Value.prop responseBody "ErrorCode"); discriminate
      | intros [? _]; lia ].
    split.
    + intros [= <-]. simpl. split; [lia | done].
    + intros (_ & [= ->] & Hh). destruct envelope; simpl in *. by rewrite Hh.
  - split; [discriminate | by intros (_ & ? & _)].
Qed.

End Interpreter.

(** The 404 document under status 200 is handed over as data. *)
Lemma request_interpret_ok_iff_witness :
  FCClient.request_interpret Sample.JSON_parse "GET" "/services/demo" false
    Cases.ok_response
  = Ok {| env_headers := [("content-type", "application/json")];
          env_data := VObj [("ErrorCode", VStr "ServiceNotFound");
                            ("ErrorMessage", VStr "foo")] |}.
Proof.
  apply (request_interpret_ok_iff Sample.JSON_parse "GET" "/services/demo" false
           Cases.ok_response).
  split; [simpl; lia | split; reflexivity].
Defined.

Section Credentials.

Import Js FCClient.

Variable utc_now : string.
Variable user_agent : string.

Local Abbreviation buildHeaders := (FCClient.buildHeaders utc_now user_agent).

Lemma nonempty_true (s : string) : nonempty s = true ↔ s ≠ "".
Proof.
  unfold nonempty. rewrite negb_true_iff. apply String.eqb_neq.
Qed.

(** Construction succeeds exactly when the account id, the access key
    identifier, the access key secret and the region are non-empty and an
    [STS] key identifier comes with a session token. *)
Theorem constructor_succeeds_iff (accountId : string) (config : Config.t) :
  (∃ c, FCClient.new accountId (Some config) = Ok c)
  ↔ accountId ≠ ""
    ∧ Config.accessKeyID config ≠ ""
    ∧ Config.accessKeySecret config ≠ ""
    ∧ Config.region config ≠ ""
    ∧ (startsWith (Config.accessKeyID config) "STS" = true →
       present (Config.securityToken config) = true).
Proof.
  unfold FCClient.new. rewrite <- !nonempty_true.
  destruct (nonempty accountId); simpl;
    [|split; [by intros [? ?] | by intros [? _]]].
  destruct (nonempty (Config.accessKeyID config)); simpl;
    [|split; [by intros [? ?] | by intros (_ & ? & _)]].
  destruct (startsWith (Config.accessKeyID config) "STS"),
           (present (Config.securityToken config)); simpl;
    try (split; [by intros [? ?] | intros (_ & _ & _ & _ & H); by specialize (H eq_refl)]);
    (destruct (nonempty (Config.accessKeySecret config)); simpl;
       [|split; [by intros [? ?] | by intros (_ & _ & ? & _)]];
     destruct (nonempty (Config.region config)); simpl;
       [|split; [by intros [? ?] | by intros (_ & _ & _ & ? & _)]];
     split; [done | eauto]).
Qed.

(** The session token is kept, and sent as [x-fc-security-token], only for
    an [STS] key identifier; with any other key identifier a configured
    token is dropped. *)
Theorem security_token_only_for_STS (accountId : string) (config : Config.t)
    (c : FCClient.t) :
  FCClient.new accountId (Some config) = Ok c →
  Value.lookup "x-fc-security-token" (buildHeaders c)
  = if startsWith (Config.accessKeyID config) "STS"
    then VStr <$> Config.securityToken config
    else None.
Proof.
  unfold FCClient.new.
  destruct (nonempty accountId); simpl; [|done].
  destruct (nonempty (Config.accessKeyID config)); simpl; [|done].
  destruct (startsWith (Config.accessKeyID config) "STS") eqn:Hsts; simpl.
  - destruct (present (Config.securityToken config)) eqn:Htok; simpl; [|done].
    destruct (nonempty (Config.accessKeySecret config)); simpl; [|done].
    destruct (nonempty (Config.region config)); simpl; [|done].
    intros [= <-]. unfold FCClient.buildHeaders. cbn [securityToken].
    rewrite Htok. by destruct (Config.securityToken config).
  - destruct (nonempty (Config.accessKeySecret config)); simpl; [|done].
    destruct (nonempty (Config.region config)); simpl; [|done].
    by intros [= <-].
Qed.

End Credentials.

(** The temporary credentials of the sample, with their token. *)
Lemma security_token_only_for_STS_witness :
  Value.lookup "x-fc-security-token"
    (FCClient.buildHeaders Sample.utc_now Sample.user_agent Cases.sts_client)
  = Some (VStr "tok").
Proof.
  apply (security_token_only_for_STS Sample.utc_now Sample.user_agent "acct"
           Cases.sts_config Cases.sts_client).
  reflexivity.
Defined.
